(** * The Sphinx configuration [docs/conf.py] as a state-passing program

    [docs/conf.py] is a straight-line Python module: thirteen assignments of
    literals to module-level names, two [import] statements and one call,
    [sys.path.insert(0, os.path.abspath('../cpp/src'))].

    The module is embedded statement by statement in a small state-and-error
    monad.  The state holds the module namespace (a finite map from names to
    values), the part of the interpreter the module can reach ([sys.path] and
    the working directory read by [os.path.abspath]) and the chronological
    list of the effects performed so far. *)

From Stdlib Require Import ZArith Ascii String.
From stdpp Require Import gmap strings list fin_maps.

Local Open Scope string_scope.

(** ** Values, interpreter state, effects *)

(** The values the module manipulates: string literals, lists of string
    literals, one dict literal with string keys and values, and the module
    objects bound by [import]. *)
Inductive value : Type :=
  | VStr (s : string)
  | VList (l : list string)
  | VDict (d : gmap string string)
  | VModule (m : string).

(** Interpreter state outside the module's own namespace. *)
Record world : Type := World {
  cwd : string;              (* what os.getcwd() returns *)
  sys_path : list string     (* the list object sys.path *)
}.

(** One entry per effect, in the order performed. *)
Inductive event : Type :=
  | EBind (name : string) (v : value)        (* name = v at module level *)
  | ESysPathInsert (i : Z) (p : string).     (* sys.path.insert(i, p) *)

Record state : Type := State {
  globals : gmap string value;
  ext : world;
  trace : list event
}.

Inductive error : Type :=
  | NameError (name : string)
  | AttributeError (obj attr : string).

(** ** The monad *)

Definition M (A : Type) : Type := state -> error + (A * state).

#[export] Instance conf_ret : MRet M := fun A a s => inr (a, s).

#[export] Instance conf_bind : MBind M := fun A B k m s =>
  match m s with
  | inl e => inl e
  | inr (a, s') => k a s'
  end.

(** ** Python primitives used by the module *)

(** [list.insert(i, x)]: a negative index counts from the end, and the index
    is clamped to [0 .. len]. *)
Definition py_list_insert {A} (l : list A) (i : Z) (x : A) : list A :=
  let n := Z.of_nat (length l) in
  let j := (if i <? 0 then (if i + n <? 0 then 0 else i + n)
            else (if n <? i then n else i))%Z in
  take (Z.to_nat j) l ++ x :: drop (Z.to_nat j) l.

(** [name = v] at module level. *)
Definition assign (name : string) (v : value) : M unit :=
  fun s => inr (tt, {| globals := <[name := v]> (globals s);
                       ext := ext s;
                       trace := trace s ++ [EBind name v] |}).

(** [import m] for a module the interpreter already has: binds the name [m]
    to the module object. *)
Definition import_ (m : string) : M unit := assign m (VModule m).

(** Reading a module-level name that is expected to hold a module. *)
Definition load_module (name : string) : M string :=
  fun s => match globals s !! name with
           | None => inl (NameError name)
           | Some (VModule m) => inr (m, s)
           | Some _ => inl (AttributeError name "path")
           end.

Section Conf.

(** [os.path.abspath] belongs to the interpreter's library, not to this
    repository: it is a function of the working directory and of its
    argument, and the development is parametric in it. *)
Variable abspath : string -> string -> string.

(** [m.path.abspath(p)] *)
Definition os_path_abspath (m : string) (p : string) : M string :=
  fun s => if decide (m = "os") then inr (abspath (cwd (ext s)) p, s)
           else inl (AttributeError m "path").

(** [m.path.insert(i, p)] *)
Definition sys_path_insert (m : string) (i : Z) (p : string) : M unit :=
  fun s => if decide (m = "sys")
           then inr (tt, {| globals := globals s;
                            ext := {| cwd := cwd (ext s);
                                      sys_path := py_list_insert (sys_path (ext s)) i p |};
                            trace := trace s ++ [ESysPathInsert i p] |})
           else inl (AttributeError m "path").

(** ** The module, line by line *)

Definition conf : M unit :=
  assign "project" (VStr "CANDOR Research Documentation") ;;
  assign "copyright" (VStr "2025, Dalton Burkhart") ;;
  assign "author" (VStr "Dalton Burkhart") ;;
  import_ "os" ;;
  import_ "sys" ;;
  (* sys.path.insert(0, os.path.abspath('../cpp/src')): the callee is
     evaluated before its arguments *)
  sys_mod ← load_module "sys";
  os_mod ← load_module "os";
  p ← os_path_abspath os_mod "../cpp/src";
  sys_path_insert sys_mod 0 p ;;
  assign "extensions" (VList ["breathe"; "sphinx_rtd_theme"]) ;;
  assign "templates_path" (VList ["_templates"]) ;;
  assign "exclude_patterns" (VList ["_build"; "Thumbs.db"; ".DS_Store"]) ;;
  assign "breathe_projects"
    (VDict {[ "CANDOR Research Documentation" := "./output/xml" ]}) ;;
  assign "breathe_default_project" (VStr "CANDOR Research Documentation") ;;
  assign "breathe_default_members" (VList ["members"]) ;;
  assign "highlight_language" (VStr "c++") ;;
  assign "master_doc" (VStr "index") ;;
  assign "html_theme" (VStr "sphinx_rtd_theme") ;;
  assign "html_static_path" (VList ["_static"]).

(** Evaluation starts from a namespace [g] and a world [w], with no effect
    performed yet. *)
Definition init (w : world) (g : gmap string value) : state :=
  {| globals := g; ext := w; trace := [] |}.

Definition eval_conf (w : world) (g : gmap string value) : error + (unit * state) :=
  conf (init w g).

End Conf.

(** ** A POSIX instance of [os.path.abspath]

    Used to run the module on concrete inputs.  It follows CPython's
    [posixpath]: [abspath(p) = normpath(p if isabs(p) else join(getcwd(), p))]. *)

Fixpoint split_slash (cur : string) (s : string) : list string :=
  match s with
  | EmptyString => [cur]
  | String c s' =>
      if Ascii.eqb c "/"%char then cur :: split_slash EmptyString s'
      else split_slash (cur +:+ String c EmptyString) s'
  end.

Fixpoint join_slash (l : list string) : string :=
  match l with
  | [] => EmptyString
  | [x] => x
  | x :: l' => x +:+ "/" +:+ join_slash l'
  end.

Definition starts_with (pre s : string) : bool := String.prefix pre s.

Definition ends_with_slash (s : string) : bool :=
  match last (split_slash EmptyString s) with
  | Some EmptyString => negb (String.eqb s EmptyString)
  | _ => false
  end.

Definition posix_join (a b : string) : string :=
  if starts_with "/" b then b
  else if String.eqb a EmptyString || ends_with_slash a then a +:+ b
  else a +:+ "/" +:+ b.

(** The loop of [normpath] over the components, [acc] in reverse order. *)
Fixpoint norm_comps (rooted : bool) (acc : list string) (comps : list string)
  : list string :=
  match comps with
  | [] => rev acc
  | c :: comps' =>
      if String.eqb c EmptyString || String.eqb c "." then norm_comps rooted acc comps'
      else if negb (String.eqb c "..") then norm_comps rooted (c :: acc) comps'
      else match acc with
           | [] => if rooted then norm_comps rooted acc comps'
                   else norm_comps rooted (c :: acc) comps'
           | d :: acc' => if String.eqb d ".." then norm_comps rooted (c :: acc) comps'
                          else norm_comps rooted acc' comps'
           end
  end.

Definition posix_normpath (p : string) : string :=
  if String.eqb p EmptyString then "."
  else
    let slashes :=
      if starts_with "/" p then
        (if starts_with "//" p && negb (starts_with "///" p) then "//" else "/")
      else EmptyString in
    let r := slashes +:+ join_slash (norm_comps (starts_with "/" p) [] (split_slash EmptyString p)) in
    if String.eqb r EmptyString then "." else r.

Definition posix_abspath (cwd p : string) : string :=
  posix_normpath (if starts_with "/" p then p else posix_join cwd p).

(** ** Reading a trace *)

Definition is_bind_of (n : string) (e : event) : bool :=
  match e with
  | EBind m _ => String.eqb n m
  | ESysPathInsert _ _ => false
  end.

(** The assignments to [n] in a trace. *)
Definition bindings_of (n : string) (tr : list event) : list event :=
  List.filter (is_bind_of n) tr.

Definition is_external (e : event) : bool :=
  match e with
  | EBind _ _ => false
  | ESysPathInsert _ _ => true
  end.

(** The effects of a trace on state outside the module namespace. *)
Definition external_events (tr : list event) : list event :=
  List.filter is_external tr.



(** Replaying the bindings of a trace on a namespace. *)
Definition apply_event (g : gmap string value) (e : event) : gmap string value :=
  match e with
  | EBind n v => <[n := v]> g
  | ESysPathInsert _ _ => g
  end.

Definition replay (tr : list event) (g : gmap string value) : gmap string value :=
  foldl apply_event g tr.

(** Two namespaces agree on a list of names. *)
Definition agree_on (names : list string) (g1 g2 : gmap string value) : Prop :=
  ∀ n, n ∈ names → g1 !! n = g2 !! n.

(** The configuration values the module sets. *)
Definition conf_names : list string :=
  [ "project"; "copyright"; "author"; "extensions"; "templates_path";
    "exclude_patterns"; "breathe_projects"; "breathe_default_project";
    "breathe_default_members"; "highlight_language"; "master_doc";
    "html_theme"; "html_static_path" ].




(** ** The outcome of an evaluation, in closed form *)

Section Outcome.

Variable abspath : string -> string -> string.

(** The directory inserted into [sys.path]. *)
Definition src_dir (w : world) : string := abspath (cwd w) "../cpp/src".

(** The effects of one evaluation, in order. *)
Definition conf_trace (w : world) : list event :=
  [ EBind "project" (VStr "CANDOR Research Documentation");
    EBind "copyright" (VStr "2025, Dalton Burkhart");
    EBind "author" (VStr "Dalton Burkhart");
    EBind "os" (VModule "os");
    EBind "sys" (VModule "sys");
    ESysPathInsert 0 (src_dir w);
    EBind "extensions" (VList ["breathe"; "sphinx_rtd_theme"]);
    EBind "templates_path" (VList ["_templates"]);
    EBind "exclude_patterns" (VList ["_build"; "Thumbs.db"; ".DS_Store"]);
    EBind "breathe_projects"
      (VDict {[ "CANDOR Research Documentation" := "./output/xml" ]});
    EBind "breathe_default_project" (VStr "CANDOR Research Documentation");
    EBind "breathe_default_members" (VList ["members"]);
    EBind "highlight_language" (VStr "c++");
    EBind "master_doc" (VStr "index");
    EBind "html_theme" (VStr "sphinx_rtd_theme");
    EBind "html_static_path" (VList ["_static"]) ].

Definition conf_final (w : world) (g : gmap string value) : state :=
  {| globals := replay (conf_trace w) g;
     ext := {| cwd := cwd w; sys_path := src_dir w :: sys_path w |};
     trace := conf_trace w |}.

End Outcome.

(** The bindings the module leaves in its namespace, as a finite map. *)
Definition conf_bindings : gmap string value :=
  list_to_map
    [ ("project", VStr "CANDOR Research Documentation");
      ("copyright", VStr "2025, Dalton Burkhart");
      ("author", VStr "Dalton Burkhart");
      ("os", VModule "os");
      ("sys", VModule "sys");
      ("extensions", VList ["breathe"; "sphinx_rtd_theme"]);
      ("templates_path", VList ["_templates"]);
      ("exclude_patterns", VList ["_build"; "Thumbs.db"; ".DS_Store"]);
      ("breathe_projects",
        VDict {[ "CANDOR Research Documentation" := "./output/xml" ]});
      ("breathe_default_project", VStr "CANDOR Research Documentation");
      ("breathe_default_members", VList ["members"]);
      ("highlight_language", VStr "c++");
      ("master_doc", VStr "index");
      ("html_theme", VStr "sphinx_rtd_theme");
      ("html_static_path", VList ["_static"]) ].

(** ** Evaluating the module more than once

    [sys.path] belongs to the interpreter and outlives an evaluation of the
    module; the module namespace does not.  [eval_conf_n n] evaluates the
    module [n] times in one interpreter, each time in the namespace [g], and
    returns the interpreter state reached. *)

Section Again.

Variable abspath : string -> string -> string.

Fixpoint eval_conf_n (n : nat) (w : world) (g : gmap string value) : error + world :=
  match n with
  | O => inr w
  | S n' =>
      match eval_conf abspath w g with
      | inl e => inl e
      | inr (_, s) => eval_conf_n n' (ext s) g
      end
  end.

End Again.

(** ** Concrete inputs *)

(** A build started in [docs/], with two entries already on [sys.path]. *)
Definition docs_world : world :=
  {| cwd := "/home/user/proj/docs";
     sys_path := ["/usr/lib/python3"; "/usr/lib/python3/site-packages"] |}.

(** The same directory, another [sys.path]. *)
Definition docs_world' : world :=
  {| cwd := "/home/user/proj/docs"; sys_path := [] |}.

(** A build whose [sys.path] already holds the C++ source directory. *)
Definition docs_world_dup : world :=
  {| cwd := "/home/user/proj/docs";
     sys_path := ["/usr/lib/python3"; "/home/user/proj/cpp/src"] |}.

(** The namespace the documentation tool hands to the module. *)
Definition tool_namespace : gmap string value :=
  {[ "__file__" := VStr "/home/user/proj/docs/conf.py" ]}.

(** * Properties *)

Example posix_abspath_docs :
  posix_abspath "/home/user/proj/docs" "../cpp/src" = "/home/user/proj/cpp/src".
Proof. vm_compute. reflexivity. Qed.

Example posix_abspath_root : posix_abspath "/" "../cpp/src" = "/cpp/src".
Proof. vm_compute. reflexivity. Qed.

Example posix_abspath_dotdot :
  posix_abspath "/a/b/../c/./d/" "../cpp/src" = "/a/c/cpp/src".
Proof. vm_compute. reflexivity. Qed.

Example py_list_insert_neg : py_list_insert ["a"; "b"; "c"] (-1) "x" = ["a"; "b"; "x"; "c"].
Proof. reflexivity. Qed.

Example py_list_insert_far : py_list_insert ["a"; "b"] 7 "x" = ["a"; "b"; "x"].
Proof. reflexivity. Qed.

Lemma py_list_insert_0 {A} (l : list A) (x : A) : py_list_insert l 0 x = x :: l.
Proof.
  unfold py_list_insert. simpl.
  destruct (Z.ltb_spec (Z.of_nat (length l)) 0) as [Hlt | _]; [lia | reflexivity].
Qed.

Section Properties.

Variable abspath : string -> string -> string.

(** Evaluation never raises, and ends in [conf_final]. *)
Lemma eval_conf_final (w : world) (g : gmap string value) :
  eval_conf abspath w g = inr (tt, conf_final abspath w g).
Proof.
  unfold eval_conf, conf, import_, init, mbind, conf_bind, load_module. simpl.
  simplify_map_eq.
  unfold os_path_abspath, sys_path_insert. simpl.
  rewrite py_list_insert_0. reflexivity.
Qed.

(** Looking a name up in the final namespace. *)
Ltac final_lookup :=
  unfold conf_final, replay, conf_trace; cbn [globals foldl apply_event];
  simplify_map_eq; reflexivity.

(** Evaluation succeeds; the remaining goal is about [conf_final]. *)
Ltac run_conf w g :=
  exists (conf_final abspath w g); split; [apply eval_conf_final |].

(** C1: evaluating the module performs exactly one [sys.path] insertion, of
    [os.path.abspath('../cpp/src')] at index 0; afterwards the first element
    of [sys.path] is that directory. *)
Theorem sys_path_insert_once (w : world) (g : gmap string value) :
  ∃ s', eval_conf abspath w g = inr (tt, s') ∧
    external_events (trace s') = [ESysPathInsert 0 (abspath (cwd w) "../cpp/src")] ∧
    sys_path (ext s') = py_list_insert (sys_path w) 0 (abspath (cwd w) "../cpp/src") ∧
    head (sys_path (ext s')) = Some (abspath (cwd w) "../cpp/src").
Proof.
  run_conf w g. rewrite py_list_insert_0. repeat split.
Qed.

(** C2: after evaluation [extensions] is the two-element list
    ['breathe', 'sphinx_rtd_theme'], in that order. *)
Theorem extensions_value (w : world) (g : gmap string value) :
  ∃ s', eval_conf abspath w g = inr (tt, s') ∧
    globals s' !! "extensions" = Some (VList ["breathe"; "sphinx_rtd_theme"]).
Proof. run_conf w g. final_lookup. Qed.

(** C3: [breathe_default_project] is a key of [breathe_projects], and the
    mapping sends it to './output/xml'. *)
Theorem breathe_default_project_mapped (w : world) (g : gmap string value) :
  ∃ s' k d, eval_conf abspath w g = inr (tt, s') ∧
    globals s' !! "breathe_default_project" = Some (VStr k) ∧
    globals s' !! "breathe_projects" = Some (VDict d) ∧
    d !! k = Some "./output/xml".
Proof.
  exists (conf_final abspath w g), "CANDOR Research Documentation",
    {[ "CANDOR Research Documentation" := "./output/xml" ]}.
  split; [apply eval_conf_final |].
  split; [final_lookup |]. split; [final_lookup |].
  apply lookup_singleton_eq.
Qed.

(** C4 (amended): the string bound to [project] is
    'CANDOR Research Documentation'. *)
Theorem project_value (w : world) (g : gmap string value) :
  ∃ s', eval_conf abspath w g = inr (tt, s') ∧
    globals s' !! "project" = Some (VStr "CANDOR Research Documentation").
Proof. run_conf w g. final_lookup. Qed.

(** C5: [templates_path], [exclude_patterns] and [html_static_path] are the
    lists ['_templates'], ['_build', 'Thumbs.db', '.DS_Store'] and
    ['_static']. *)
Theorem path_lists_value (w : world) (g : gmap string value) :
  ∃ s', eval_conf abspath w g = inr (tt, s') ∧
    globals s' !! "templates_path" = Some (VList ["_templates"]) ∧
    globals s' !! "exclude_patterns" = Some (VList ["_build"; "Thumbs.db"; ".DS_Store"]) ∧
    globals s' !! "html_static_path" = Some (VList ["_static"]).
Proof. run_conf w g. repeat split; final_lookup. Qed.

(** C6: after evaluation [html_theme] is the string 'sphinx_rtd_theme'. *)
Theorem html_theme_value (w : world) (g : gmap string value) :
  ∃ s', eval_conf abspath w g = inr (tt, s') ∧
    globals s' !! "html_theme" = Some (VStr "sphinx_rtd_theme").
Proof. run_conf w g. final_lookup. Qed.

(** C7: each of [project], [copyright] and [author] is assigned a string
    exactly once during evaluation, and its final value is the value of that
    assignment. *)
Theorem identity_assigned_once (w : world) (g : gmap string value) :
  ∃ s', eval_conf abspath w g = inr (tt, s') ∧
    ∀ n, n ∈ ["project"; "copyright"; "author"] →
      ∃ v, bindings_of n (trace s') = [EBind n (VStr v)] ∧
           globals s' !! n = Some (VStr v).
Proof.
  run_conf w g. intros n Hn.
  repeat (apply elem_of_cons in Hn as [-> | Hn]); [| | | by apply elem_of_nil in Hn].
  - exists "CANDOR Research Documentation". split; [reflexivity | final_lookup].
  - exists "2025, Dalton Burkhart". split; [reflexivity | final_lookup].
  - exists "Dalton Burkhart". split; [reflexivity | final_lookup].
Qed.




(** C9: the string bound to [html_theme] is an element of the list bound to
    [extensions]. *)
Theorem html_theme_in_extensions (w : world) (g : gmap string value) :
  ∃ s' t l, eval_conf abspath w g = inr (tt, s') ∧
    globals s' !! "html_theme" = Some (VStr t) ∧
    globals s' !! "extensions" = Some (VList l) ∧
    t ∈ l.
Proof.
  exists (conf_final abspath w g), "sphinx_rtd_theme", ["breathe"; "sphinx_rtd_theme"].
  split; [apply eval_conf_final |].
  split; [final_lookup |]. split; [final_lookup |].
  apply elem_of_cons; right; apply elem_of_cons; left; reflexivity.
Qed.

(** The configuration values do not depend on the world or on the initial
    namespace at all. *)
Lemma conf_values_constant (w1 w2 : world) (g1 g2 : gmap string value) :
  agree_on conf_names (globals (conf_final abspath w1 g1))
                      (globals (conf_final abspath w2 g2)).
Proof.
  intros n Hn. unfold conf_names in Hn.
  repeat (apply elem_of_cons in Hn as [-> | Hn]);
    [.. | by apply elem_of_nil in Hn];
    unfold conf_final, replay, conf_trace; cbn [globals foldl apply_event];
    simplify_map_eq; reflexivity.
Qed.

Lemma conf_values_bound (w : world) (g : gmap string value) (n : string) :
  n ∈ conf_names → is_Some (globals (conf_final abspath w g) !! n).
Proof.
  intros Hn. unfold conf_names in Hn.
  repeat (apply elem_of_cons in Hn as [-> | Hn]);
    [.. | by apply elem_of_nil in Hn];
    unfold conf_final, replay, conf_trace; cbn [globals foldl apply_event];
    simplify_map_eq; eauto.
Qed.

(** C10: two evaluations started in the same working directory, whatever
    [sys.path] and the initial namespace are in each, both succeed and end
    with the same value for every configuration name, the same entry inserted
    into [sys.path] and the same sequence of effects. *)
Theorem conf_deterministic (w1 w2 : world) (g1 g2 : gmap string value) :
  cwd w1 = cwd w2 →
  ∃ s1 s2, eval_conf abspath w1 g1 = inr (tt, s1) ∧
           eval_conf abspath w2 g2 = inr (tt, s2) ∧
    agree_on conf_names (globals s1) (globals s2) ∧
    (∀ n, n ∈ conf_names → is_Some (globals s1 !! n)) ∧
    head (sys_path (ext s1)) = head (sys_path (ext s2)) ∧
    trace s1 = trace s2.
Proof.
  intros Hcwd.
  exists (conf_final abspath w1 g1), (conf_final abspath w2 g2).
  split; [apply eval_conf_final |]. split; [apply eval_conf_final |].
  split; [apply conf_values_constant |].
  split; [intros n; apply conf_values_bound |].
  unfold conf_final, conf_trace, src_dir; cbn [ext sys_path trace head].
  rewrite Hcwd. split; reflexivity.
Qed.

End Properties.

(** C4 (as stated) fails: on a concrete build the string bound to [project]
    is not 'CANDOR'. *)
Lemma project_is_not_CANDOR :
  ∃ s', eval_conf posix_abspath docs_world tool_namespace = inr (tt, s') ∧
    globals s' !! "project" = Some (VStr "CANDOR Research Documentation") ∧
    globals s' !! "project" ≠ Some (VStr "CANDOR").
Proof.
  exists (conf_final posix_abspath docs_world tool_namespace).
  split; [apply eval_conf_final |].
  assert (H : globals (conf_final posix_abspath docs_world tool_namespace) !! "project"
              = Some (VStr "CANDOR Research Documentation")).
  { unfold conf_final, replay, conf_trace; cbn [globals foldl apply_event].
    simplify_map_eq. reflexivity. }
  split; [exact H |]. rewrite H. intros [=].
Qed.



(** Two builds in the same directory with different [sys.path] and
    namespaces. *)
Lemma conf_deterministic_witness :
  cwd docs_world = cwd docs_world' ∧
  ∃ s1 s2, eval_conf posix_abspath docs_world tool_namespace = inr (tt, s1) ∧
           eval_conf posix_abspath docs_world' ∅ = inr (tt, s2) ∧
    agree_on conf_names (globals s1) (globals s2) ∧
    (∀ n, n ∈ conf_names → is_Some (globals s1 !! n)) ∧
    head (sys_path (ext s1)) = head (sys_path (ext s2)) ∧
    trace s1 = trace s2.
Proof.
  split; [reflexivity |].
  apply (conf_deterministic posix_abspath docs_world docs_world' tool_namespace ∅).
  reflexivity.
Defined.

(** * Further properties of the module *)

(** The namespace effect of a trace does not depend on the namespace it is
    replayed on: it overrides it. *)
Lemma replay_union (tr : list event) (g : gmap string value) :
  replay tr g = replay tr ∅ ∪ g.
Proof.
  unfold replay. revert g. induction tr as [| e tr IH]; intros g; simpl.
  - by rewrite (left_id_L ∅ (∪)).
  - rewrite IH. rewrite (IH (apply_event ∅ e)).
    destruct e as [n v | i p]; simpl.
    + rewrite <- (assoc_L (∪)). f_equal.
      rewrite insert_empty. apply insert_union_singleton_l.
    + by rewrite (right_id_L ∅ (∪)).
Qed.

Section Further.

Variable abspath : string -> string -> string.

Lemma replay_conf_trace (w : world) :
  replay (conf_trace abspath w) ∅ = conf_bindings.
Proof.
  apply map_eq. intros i.
  unfold replay, conf_trace, conf_bindings;
    cbn [foldl apply_event list_to_map foldr uncurry fst snd].
  repeat (rewrite (lookup_insert _ _ i); case_decide;
          [subst i; simplify_map_eq; congruence |]).
  reflexivity.
Qed.

Lemma final_globals (w : world) (g : gmap string value) :
  globals (conf_final abspath w g) = conf_bindings ∪ g.
Proof.
  unfold conf_final; cbn [globals].
  rewrite replay_union. by rewrite replay_conf_trace.
Qed.

Lemma replicate_snoc_app {A} (n : nat) (x : A) (l : list A) :
  (replicate n x ++ x :: l = x :: replicate n x ++ l)%list.
Proof. induction n as [| n IH]; simpl; [reflexivity | by rewrite IH]. Qed.

(** X1: the namespace after evaluation is the initial namespace overridden by
    the module's fifteen bindings (thirteen configuration values, [os] and
    [sys]); no other name is added, removed or changed. *)
Theorem final_namespace_overrides (w : world) (g : gmap string value) :
  ∃ s', eval_conf abspath w g = inr (tt, s') ∧
    globals s' = conf_bindings ∪ g ∧
    dom (globals s') = dom conf_bindings ∪ dom g.
Proof.
  exists (conf_final abspath w g). split; [apply eval_conf_final |].
  rewrite final_globals. split; [reflexivity | apply dom_union_L].
Qed.

(** X2: evaluating the module [n] times in one interpreter puts [n] copies of
    the source directory in front of [sys.path]: the insertion is not guarded
    by a membership test, and nothing else of the interpreter state
    changes. *)
Theorem eval_conf_n_sys_path (n : nat) (w : world) (g : gmap string value) :
  eval_conf_n abspath n w g =
    inr {| cwd := cwd w;
           sys_path := (replicate n (src_dir abspath w) ++ sys_path w)%list |}.
Proof.
  revert w. induction n as [| n IH]; intros w.
  - destruct w; reflexivity.
  - cbn [eval_conf_n]. rewrite eval_conf_final. rewrite IH.
    unfold conf_final, src_dir; cbn [ext cwd sys_path replicate].
    by rewrite replicate_snoc_app.
Qed.

(** X3: if the source directory is already on [sys.path], evaluation leaves
    it there twice. *)
Theorem sys_path_duplicate (w : world) (g : gmap string value) :
  src_dir abspath w ∈ sys_path w →
  ∃ s', eval_conf abspath w g = inr (tt, s') ∧ ¬ NoDup (sys_path (ext s')).
Proof.
  intros Hin. exists (conf_final abspath w g). split; [apply eval_conf_final |].
  unfold conf_final; cbn [ext sys_path]. intros Hnd.
  apply NoDup_cons in Hnd as [Hnotin _]. by apply Hnotin.
Qed.

(** X4: evaluating the module in the namespace left by an earlier evaluation
    changes no binding, in whatever interpreter state the second evaluation
    runs. *)
Theorem namespace_idempotent (w w' : world) (g : gmap string value) :
  ∃ s1 s2, eval_conf abspath w g = inr (tt, s1) ∧
           eval_conf abspath w' (globals s1) = inr (tt, s2) ∧
           globals s2 = globals s1.
Proof.
  exists (conf_final abspath w g),
         (conf_final abspath w' (globals (conf_final abspath w g))).
  split; [apply eval_conf_final |]. split; [apply eval_conf_final |].
  rewrite !final_globals. rewrite (assoc_L (∪)). by rewrite (idemp_L (∪)).
Qed.

(** X5: the documented project and the default Breathe project carry the same
    name, and it is the only project [breathe_projects] declares. *)
Theorem project_is_only_breathe_project (w : world) (g : gmap string value) :
  ∃ s' k d, eval_conf abspath w g = inr (tt, s') ∧
    globals s' !! "project" = Some (VStr k) ∧
    globals s' !! "breathe_default_project" = Some (VStr k) ∧
    globals s' !! "breathe_projects" = Some (VDict d) ∧
    dom d = {[ k ]}.
Proof.
  exists (conf_final abspath w g), "CANDOR Research Documentation",
    {[ "CANDOR Research Documentation" := "./output/xml" ]}.
  split; [apply eval_conf_final |].
  repeat (split; [unfold conf_final, replay, conf_trace;
                  cbn [globals foldl apply_event]; simplify_map_eq; reflexivity |]).
  apply dom_singleton_L.
Qed.

(** X6: the copyright line is the year 2025 followed by a comma, a space and
    the string bound to [author]. *)
Theorem copyright_names_author (w : world) (g : gmap string value) :
  ∃ s' a, eval_conf abspath w g = inr (tt, s') ∧
    globals s' !! "author" = Some (VStr a) ∧
    globals s' !! "copyright" = Some (VStr ("2025, " +:+ a)).
Proof.
  exists (conf_final abspath w g), "Dalton Burkhart".
  split; [apply eval_conf_final |].
  split; unfold conf_final, replay, conf_trace;
    cbn [globals foldl apply_event]; simplify_map_eq; reflexivity.
Qed.

End Further.

(** X7: the namespace the module leaves does not depend on the implementation
    of [os.path.abspath], on the working directory or on [sys.path]: only the
    entry inserted into [sys.path] does. *)
Theorem namespace_platform_independent
    (abspath1 abspath2 : string -> string -> string)
    (w1 w2 : world) (g : gmap string value) :
  ∃ s1 s2, eval_conf abspath1 w1 g = inr (tt, s1) ∧
           eval_conf abspath2 w2 g = inr (tt, s2) ∧
           globals s1 = globals s2.
Proof.
  exists (conf_final abspath1 w1 g), (conf_final abspath2 w2 g).
  split; [apply eval_conf_final |]. split; [apply eval_conf_final |].
  by rewrite !final_globals.
Qed.

(** A build whose [sys.path] already holds the source directory ends with the
    directory listed twice. *)
Lemma sys_path_duplicate_witness :
  src_dir posix_abspath docs_world_dup ∈ sys_path docs_world_dup ∧
  ∃ s', eval_conf posix_abspath docs_world_dup tool_namespace = inr (tt, s') ∧
        ¬ NoDup (sys_path (ext s')).
Proof.
  assert (H : src_dir posix_abspath docs_world_dup ∈ sys_path docs_world_dup).
  { apply elem_of_cons; right. apply elem_of_cons; left. vm_compute. reflexivity. }
  split; [exact H |].
  exact (sys_path_duplicate posix_abspath docs_world_dup tool_namespace H).
Defined.
